(** * Solar-system visualisation: simulation clock and orbital positions

    A shallow embedding of the two pieces of the application that carry
    arithmetic content:

    - the simulation clock of [App.tsx] (component [AppContent]): the React
      state [daysElapsed], [isPlaying], [speed], the ref [previousTimeRef],
      the animation callback [animate] and the control handlers;
    - [calculatePlanetPosition] of [utils/orbitalMechanics.ts];

    and of what is built on them: the orbit line and the placement of the
    planets in [components/SolarSystem.tsx], the fact service of
    [services/geminiService.ts] and the panel of
    [components/PlanetInfo.tsx] that shows its answers.

    A JavaScript [number] is an IEEE 754 binary64 value, and so it is
    here: the kernel's [float].  The clock only uses operations that
    IEEE 754 fixes bit for bit ([+], [-], [*], [/], [Math.min], [isNaN]).
    The position calculator also goes through [Math.cos], [Math.sin] and
    [**], which the language leaves implementation-approximated and pins
    only at their special values; module [Orbit64] takes these three as a
    parameter, and everything stated of the calculator's finite results is
    stated there, for every implementation or under the values an
    implementation is assumed to return.

    Module [Orbit] is a second reading of the calculator, on exact reals
    extended with NaN and the two infinities.  It agrees with binary64 on
    the special values and leaves rounding, overflow and underflow out; it
    is used only for statements that rounding does not reach: which inputs
    end in NaN, and that the nine planets of the table are placed at real
    coordinates. *)

From Stdlib Require Import ZArith Floats Bool List String Reals Lra Lia.
Import ListNotations.

(** ** The simulation clock ([App.tsx], component [AppContent]) *)

Module Clock.

Local Open Scope float_scope.

(** [Math.min] on two arguments: NaN when either argument is NaN, otherwise
    the lesser one, the negative zero being less than the positive one. *)
Definition Math_min (x y : float) : float :=
  if is_nan x || is_nan y then nan
  else if x <? y then x
  else if y <? x then y
  else if get_sign x then x else y.

(** The global [isNaN], applied to a number. *)
Definition isNaN (x : float) : bool := is_nan x.

(** The hooks of [AppContent]: three [useState] cells and the ref that holds
    the timestamp of the previous animation frame ([undefined] before the
    first frame).  [requestRef], the handle of the pending frame, carries no
    data of the clock and is left out. *)
Record AppState : Type := mkAppState {
  daysElapsed : float;
  isPlaying : bool;
  speed : float;
  previousTimeRef : option float
}.

(** [useState(0)], [useState(true)], [useState(1)], [useRef(undefined)]. *)
Definition initialState : AppState :=
  {| daysElapsed := 0; isPlaying := true; speed := 1;
     previousTimeRef := None |}.

(** The functional update handed to [setDaysElapsed] inside [animate]. *)
Definition advance (speed cappedDelta prev : float) : float :=
  if isNaN prev then 0
  else
    let next := prev + (speed * (cappedDelta / 16)) in
    next.

(** [animate(time)]: one animation frame. *)
Definition animate (time : float) (s : AppState) : AppState :=
  let s1 :=
    match previousTimeRef s with
    | Some previous =>
        let deltaTime := time - previous in
        let cappedDelta := Math_min deltaTime 100 in
        if isPlaying s then
          {| daysElapsed := advance (speed s) cappedDelta (daysElapsed s);
             isPlaying := isPlaying s;
             speed := speed s;
             previousTimeRef := previousTimeRef s |}
        else s
    | None => s
    end in
  {| daysElapsed := daysElapsed s1;
     isPlaying := isPlaying s1;
     speed := speed s1;
     previousTimeRef := Some time |}.

(** [handleReset]: [setDaysElapsed(0); setIsPlaying(false)]. *)
Definition handleReset (s : AppState) : AppState :=
  {| daysElapsed := 0;
     isPlaying := false;
     speed := speed s;
     previousTimeRef := previousTimeRef s |}.

(** The timeline slider's [onChange]: [setDaysElapsed(parseFloat(value))].
    The argument is the number [parseFloat] returned, NaN included. *)
Definition onTimelineChange (value : float) (s : AppState) : AppState :=
  {| daysElapsed := value;
     isPlaying := isPlaying s;
     speed := speed s;
     previousTimeRef := previousTimeRef s |}.

(** The play/pause button: [setIsPlaying(!isPlaying)]. *)
Definition togglePlaying (s : AppState) : AppState :=
  {| daysElapsed := daysElapsed s;
     isPlaying := negb (isPlaying s);
     speed := speed s;
     previousTimeRef := previousTimeRef s |}.

(** The speed slider's [onChange]: [setSpeed(parseFloat(value))]. *)
Definition onSpeedChange (value : float) (s : AppState) : AppState :=
  {| daysElapsed := daysElapsed s;
     isPlaying := isPlaying s;
     speed := value;
     previousTimeRef := previousTimeRef s |}.

(** What the component hands to its consumers: the [daysElapsed] prop of
    [SolarSystemScene] and the [value] of the timeline slider are both
    [isNaN(daysElapsed) ? 0 : daysElapsed]; the day counter of the date
    display applies the same guard before it rounds down. *)
Definition shownDaysElapsed (s : AppState) : float :=
  if isNaN (daysElapsed s) then 0 else daysElapsed s.

(** A run of the component: frames and user actions, oldest first. *)
Inductive Event : Type :=
| Frame (time : float)
| Reset
| Scrub (value : float)
| TogglePlay
| SetSpeed (value : float).

Definition step (s : AppState) (e : Event) : AppState :=
  match e with
  | Frame time => animate time s
  | Reset => handleReset s
  | Scrub value => onTimelineChange value s
  | TogglePlay => togglePlaying s
  | SetSpeed value => onSpeedChange value s
  end.

Definition run (es : list Event) (s : AppState) : AppState :=
  fold_left step es s.

(** The events that neither press play nor write the accumulator from
    outside: frames and speed changes. *)
Definition idleEvent (e : Event) : bool :=
  match e with
  | Frame _ | SetSpeed _ => true
  | Reset | Scrub _ | TogglePlay => false
  end.

(** Frames only, at the given timestamps. *)
Definition ticks (times : list float) (s : AppState) : AppState :=
  fold_left (fun st time => animate time st) times s.

End Clock.

(** ** Orbital positions on exact reals with the special values
    ([types.ts], [constants.ts], [utils/orbitalMechanics.ts]) *)

Module Orbit.

Local Open Scope R_scope.
Local Open Scope string_scope.

(** *** Numbers

    A [number] is NaN, one of the two infinities, or a real.  Finite results
    are exact; the two zeros are not told apart, zero counting as positive
    where a sign is needed (a division by it). *)
Inductive number : Type :=
| NaN
| Infinity (negative : bool)
| Fin (r : R).

Definition Rnegative (r : R) : bool :=
  if Rlt_dec r 0 then true else false.

Definition Rzero (r : R) : bool :=
  if Req_dec_T r 0 then true else false.

Definition add (x y : number) : number :=
  match x, y with
  | NaN, _ | _, NaN => NaN
  | Infinity s, Infinity s' => if Bool.eqb s s' then Infinity s else NaN
  | Infinity s, Fin _ | Fin _, Infinity s => Infinity s
  | Fin a, Fin b => Fin (a + b)
  end.

Definition sub (x y : number) : number :=
  match x, y with
  | NaN, _ | _, NaN => NaN
  | Infinity s, Infinity s' => if Bool.eqb s s' then NaN else Infinity s
  | Infinity s, Fin _ => Infinity s
  | Fin _, Infinity s => Infinity (negb s)
  | Fin a, Fin b => Fin (a - b)
  end.

Definition mul (x y : number) : number :=
  match x, y with
  | NaN, _ | _, NaN => NaN
  | Infinity s, Infinity s' => Infinity (xorb s s')
  | Infinity s, Fin r | Fin r, Infinity s =>
      if Rzero r then NaN else Infinity (xorb s (Rnegative r))
  | Fin a, Fin b => Fin (a * b)
  end.

Definition div (x y : number) : number :=
  match x, y with
  | NaN, _ | _, NaN => NaN
  | Infinity _, Infinity _ => NaN
  | Infinity s, Fin r => Infinity (xorb s (Rnegative r))
  | Fin _, Infinity _ => Fin 0
  | Fin a, Fin b =>
      if Rzero b then (if Rzero a then NaN else Infinity (Rnegative a))
      else Fin (a / b)
  end.

(** [base ** exponent] for an exponent that is a natural-number literal:
    repeated multiplication, [base ** 0] being 1 for every base. *)
Fixpoint exponentiate (base : number) (exponent : nat) : number :=
  match exponent with
  | O => Fin 1
  | S n => mul base (exponentiate base n)
  end.

Definition Math_sqrt (x : number) : number :=
  match x with
  | NaN => NaN
  | Infinity s => if s then NaN else Infinity false
  | Fin r => if Rnegative r then NaN else Fin (sqrt r)
  end.

Definition Math_cos (x : number) : number :=
  match x with
  | Fin r => Fin (cos r)
  | _ => NaN
  end.

Definition Math_sin (x : number) : number :=
  match x with
  | Fin r => Fin (sin r)
  | _ => NaN
  end.

Definition Math_PI : number := Fin PI.

(** *** [types.ts]: the [PlanetData] interface *)
Record PlanetData : Type := mkPlanetData {
  name : string;
  color : string;
  size : number;
  distance : number;
  period : number;
  eccentricity : number;
  description : string
}.

(** *** [utils/orbitalMechanics.ts] *)
Definition calculatePlanetPosition (planet : PlanetData) (daysOffset : number)
  : number * number * number :=
  let periodInDays := mul (period planet) (Fin 365.25) in
  let angle := mul (mul (div daysOffset periodInDays) (Fin 2)) Math_PI in
  let a := distance planet in
  let b := mul (distance planet)
               (Math_sqrt (sub (Fin 1) (exponentiate (eccentricity planet) 2))) in
  let focusOffset := mul (distance planet) (eccentricity planet) in
  let x := sub (mul a (Math_cos angle)) focusOffset in
  let z := mul b (Math_sin angle) in
  (x, Fin 0, z).

(** *** [constants.ts]: the table [PLANETS] *)
Definition Mercury : PlanetData :=
  {| name := "Mercury"; color := "#A5A5A5"; size := Fin 0.38;
     distance := Fin 10; period := Fin 0.24; eccentricity := Fin 0.2;
     description :=
       "The smallest planet in our solar system and closest to the Sun." |}.

Definition Venus : PlanetData :=
  {| name := "Venus"; color := "#E3BB76"; size := Fin 0.95;
     distance := Fin 15; period := Fin 0.62; eccentricity := Fin 0.007;
     description :=
       "Spinning in the opposite direction to most planets, Venus is the hottest planet." |}.

Definition Earth : PlanetData :=
  {| name := "Earth"; color := "#22A6B3"; size := Fin 1;
     distance := Fin 20; period := Fin 1.00; eccentricity := Fin 0.017;
     description :=
       "Our home planet, the only place we know of so far that's inhabited by living things." |}.

Definition Mars : PlanetData :=
  {| name := "Mars"; color := "#DD4B39"; size := Fin 0.53;
     distance := Fin 26; period := Fin 1.88; eccentricity := Fin 0.09;
     description :=
       "A dusty, cold, desert world with a very thin atmosphere." |}.

Definition Jupiter : PlanetData :=
  {| name := "Jupiter"; color := "#D4A373"; size := Fin 2.5;
     distance := Fin 38; period := Fin 11.86; eccentricity := Fin 0.048;
     description :=
       "More than twice as massive as all the other planets combined." |}.

Definition Saturn : PlanetData :=
  {| name := "Saturn"; color := "#FAFABE"; size := Fin 2.1;
     distance := Fin 52; period := Fin 29.45; eccentricity := Fin 0.056;
     description :=
       "Adorned with a dazzling, complex system of icy rings." |}.

Definition Uranus : PlanetData :=
  {| name := "Uranus"; color := "#A0E6FF"; size := Fin 1.6;
     distance := Fin 68; period := Fin 84.00; eccentricity := Fin 0.046;
     description :=
       "It rotates at a nearly 90-degree angle from the plane of its orbit." |}.

Definition Neptune : PlanetData :=
  {| name := "Neptune"; color := "#4B70DD"; size := Fin 1.5;
     distance := Fin 82; period := Fin 164.81; eccentricity := Fin 0.01;
     description :=
       "The first planet located through mathematical calculations rather than by telescope." |}.

Definition Pluto : PlanetData :=
  {| name := "Pluto"; color := "#E0Cda9"; size := Fin 0.25;
     distance := Fin 95; period := Fin 248.00; eccentricity := Fin 0.248;
     description :=
       "A dwarf planet in the Kuiper Belt, a ring of bodies beyond the orbit of Neptune." |}.

Definition PLANETS : list PlanetData :=
  [Mercury; Venus; Earth; Mars; Jupiter; Saturn; Uranus; Neptune; Pluto].

(** The invariant the specification states for a body: real parameters
    with [distance > 0], [period > 0] and [0 <= eccentricity < 1]. *)
Definition CelestialBody (planet : PlanetData) (d p e : R) : Prop :=
  distance planet = Fin d /\ period planet = Fin p /\
  eccentricity planet = Fin e /\
  0 < d /\ 0 < p /\ 0 <= e < 1.

(** *** The algorithm as the specification words it, on reals

    Steps 1 to 5 of the position calculator: period in days, phase angle,
    semi-axes, focus offset, position. *)
Definition spec_position (distance period eccentricity elapsedDays : R)
  : R * R * R :=
  let periodDays := period * 365.25 in
  let angle := (elapsedDays / periodDays) * (2 * PI) in
  let a := distance in
  let b := distance * sqrt (1 - eccentricity ^ 2) in
  let f := distance * eccentricity in
  (a * cos angle - f, 0, b * sin angle).

Definition Fin3 (p : R * R * R) : number * number * number :=
  let '(x, y, z) := p in (Fin x, Fin y, Fin z).

End Orbit.

(** ** Orbital positions on binary64 ([types.ts], [constants.ts],
    [utils/orbitalMechanics.ts]) *)

Module Orbit64.

Local Open Scope float_scope.
Local Open Scope string_scope.
#[local] Set Warnings "-inexact-float".

(** [Math.cos], [Math.sin] and the operator [**]: the language asks of
    them an implementation-approximated result, so an implementation of
    the three is a parameter of the calculator. *)
Record MathBuiltins : Type := mkMathBuiltins {
  Math_cos : float -> float;
  Math_sin : float -> float;
  exponentiate : float -> float -> float
}.

(** What the language definition fixes of the three, as far as the
    calculator can reach it: NaN at NaN and at the infinities, 1 for the
    cosine and the zero itself for the sine of a zero, and for the power 2
    NaN of NaN and the positive zero of a zero. *)
Definition ECMAScript (M : MathBuiltins) : Prop :=
  Math_cos M nan = nan /\
  Math_cos M infinity = nan /\
  Math_cos M neg_infinity = nan /\
  Math_cos M 0 = 1 /\
  Math_cos M (-0) = 1 /\
  Math_sin M nan = nan /\
  Math_sin M infinity = nan /\
  Math_sin M neg_infinity = nan /\
  Math_sin M 0 = 0 /\
  Math_sin M (-0) = -0 /\
  exponentiate M nan 2 = nan /\
  exponentiate M 0 2 = 0 /\
  exponentiate M (-0) 2 = 0.

(** [Math.PI], the binary64 number next to pi. *)
Definition Math_PI : float := 0x1.921fb54442d18p+1.

(** [Math.sqrt], the square root of IEEE 754. *)
Definition Math_sqrt (x : float) : float := PrimFloat.sqrt x.

(** [types.ts]: the [PlanetData] interface. *)
Record PlanetData : Type := mkPlanetData {
  name : string;
  color : string;
  size : float;
  distance : float;
  period : float;
  eccentricity : float;
  description : string
}.

(** [utils/orbitalMechanics.ts]. *)
Definition calculatePlanetPosition
  (M : MathBuiltins) (planet : PlanetData) (daysOffset : float)
  : float * float * float :=
  let periodInDays := period planet * 365.25 in
  let angle := (daysOffset / periodInDays) * 2 * Math_PI in
  let a := distance planet in
  let b :=
    distance planet
    * Math_sqrt (1 - exponentiate M (eccentricity planet) 2) in
  let focusOffset := distance planet * eccentricity planet in
  let x := a * Math_cos M angle - focusOffset in
  let z := b * Math_sin M angle in
  (x, 0, z).

(** [constants.ts]: the entries of [PLANETS] used below. *)
Definition Venus : PlanetData :=
  {| name := "Venus"; color := "#E3BB76"; size := 0.95;
     distance := 15; period := 0.62; eccentricity := 0.007;
     description :=
       "Spinning in the opposite direction to most planets, Venus is the hottest planet." |}.

Definition Earth : PlanetData :=
  {| name := "Earth"; color := "#22A6B3"; size := 1;
     distance := 20; period := 1.00; eccentricity := 0.017;
     description :=
       "Our home planet, the only place we know of so far that's inhabited by living things." |}.

(** A body like those of the table, on a circle: the sample input where
    the eccentricity has to be 0. *)
Definition circular (distance period : float) : PlanetData :=
  {| name := "Circular"; color := "#FFFFFF"; size := 1;
     distance := distance; period := period; eccentricity := 0;
     description := "A body on a circular orbit." |}.

(** An implementation that meets [ECMAScript], for sample runs: the
    first-order approximations [cos x = 1] and [sin x = x], and
    [base * base] for the power 2. *)
Definition firstOrder : MathBuiltins :=
  {| Math_cos := fun x => if is_nan x || is_infinity x then nan else 1;
     Math_sin := fun x => if is_infinity x then nan else x;
     exponentiate :=
       fun base exponent =>
         if (exponent =? 2)%float then base * base else nan |}.

End Orbit64.

(** ** The scene ([components/SolarSystem.tsx], components [Planet] and
    [SolarSystemScene]) *)

Module Scene.

Import Clock Orbit.
Local Open Scope R_scope.

(** [THREE.Vector3], as far as its three coordinates. *)
Record Vector3 : Type := mkVector3 {
  x : number;
  y : number;
  z : number
}.

(** The body of the loop of [orbitPoints] for the index [i]: the sampling
    angle, the time that angle is mapped back to, and the point that is
    pushed, [new THREE.Vector3(x, 0, z)]. *)
Definition orbitPoint (planet : PlanetData) (i : nat) : Vector3 :=
  let angle := mul (mul (div (Fin (INR i)) (Fin 100)) (Fin 2)) Math_PI in
  let periodDays := mul (period planet) (Fin 365.25) in
  let t := div (mul angle periodDays) (mul (Fin 2) Math_PI) in
  let '(px, _, pz) := calculatePlanetPosition planet t in
  {| x := px; y := Fin 0; z := pz |}.

(** [orbitPoints]: [for (let i = 0; i <= 100; i++)] pushes one point per
    index, in order. *)
Definition orbitPoints (planet : PlanetData) : list Vector3 :=
  map (orbitPoint planet) (seq 0 101).

(** The value of a binary64 number as a [number]. *)
Definition toNumber (f : float) : number :=
  match Prim2SF f with
  | S754_nan => NaN
  | S754_infinity s => Infinity s
  | S754_zero _ => Fin 0
  | S754_finite s m e =>
      Fin (IZR (if s then Z.neg m else Z.pos m) * powerRZ 2 e)
  end.

(** The positions [SolarSystemScene] gives its planets on a frame:
    [PLANETS.map] makes one [Planet] per entry, each of which sets its mesh
    to [calculatePlanetPosition(planet, daysElapsed)], where [daysElapsed]
    is the prop [AppContent] passes down. *)
Definition planetPositions (s : AppState)
  : list (number * number * number) :=
  map (fun planet =>
         calculatePlanetPosition planet (toNumber (shownDaysElapsed s)))
      PLANETS.

End Scene.

(** ** The fact service ([services/geminiService.ts]) *)

Module Gemini.

Local Open Scope string_scope.

(** The client, as far as the key it was made with. *)
Record GoogleGenAI : Type := mkGoogleGenAI { apiKey : string }.

(** The argument of [ai.models.generateContent]. *)
Record GenerateContentParameters : Type := mkParameters {
  model : string;
  contents : string
}.

(** What awaiting [generateContent] and reading [response.text] comes to:
    an exception, or a text that may be [undefined]. *)
Inductive Response : Type :=
| Rejects (error : string)
| Resolves (text : option string).

(** What the service does besides returning: console output and calls of
    the remote model, oldest first. *)
Inductive Effect : Type :=
| ConsoleWarn (message : string)
| ConsoleError (message error : string)
| GenerateContent (ai : GoogleGenAI) (parameters : GenerateContentParameters).

(** [getClient]: [process.env.API_KEY] is a string or [undefined], and
    [!apiKey] holds of [undefined] and of the empty string. *)
Definition getClient (API_KEY : option string)
  : option GoogleGenAI * list Effect :=
  match API_KEY with
  | None | Some EmptyString =>
      (None, [ConsoleWarn "API_KEY is not set in environment variables."])
  | Some key => (Some {| apiKey := key |}, [])
  end.

Definition prompt (planetName : string) : string :=
  "Tell me a fascinating, short, scientific fact about the planet (or dwarf planet) "
  ++ planetName
  ++ " that a general user might not know. Keep it under 40 words. Do not start with 'Did you know'.".

(** [getPlanetFunFact], with the remote model as a function: the string the
    promise resolves to, and the effects on the way. *)
Definition getPlanetFunFact
  (API_KEY : option string)
  (generateContent : GoogleGenAI -> GenerateContentParameters -> Response)
  (planetName : string) : string * list Effect :=
  let '(client, log) := getClient API_KEY in
  match client with
  | None => ("API Key unavailable. Unable to fetch data.", log)
  | Some ai =>
      let parameters :=
        {| model := "gemini-2.5-flash"; contents := prompt planetName |} in
      match generateContent ai parameters with
      | Resolves text =>
          (match text with
           | None | Some EmptyString => "No information available."
           | Some fact => fact
           end,
           (log ++ [GenerateContent ai parameters])%list)
      | Rejects error =>
          ("Unable to contact the Cosmic Archive (Gemini API Error).",
           (log ++ [GenerateContent ai parameters;
                    ConsoleError "Error fetching from Gemini:" error])%list)
      end
  end.

End Gemini.

(** ** The information panel ([components/PlanetInfo.tsx]) *)

Module PlanetInfo.

Import Orbit.
Local Open Scope string_scope.

(** The prop [planet] and the two [useState] cells. *)
Record PanelState : Type := mkPanelState {
  planet : option PlanetData;
  fact : string;
  loading : bool
}.

(** Nothing is selected when the application starts; the fact is the
    empty string and [loading] is [false]. *)
Definition initialPanel : PanelState :=
  {| planet := None; fact := EmptyString; loading := false |}.

(** The panel is rendered with a new [planet] prop, which runs the effect,
    or a promise of [getPlanetFunFact] resolves, which runs its [then]
    callback.  A state of the panel is a state after its effects have run:
    the one render that is committed between a change of the prop and the
    run of its effect, with the new planet over the fact and the loading
    flag of before, is not a state of this model. *)
Inductive PanelEvent : Type :=
| PlanetProp (p : option PlanetData)
| FactArrives (data : string).

Definition panelStep (s : PanelState) (e : PanelEvent) : PanelState :=
  match e with
  | PlanetProp (Some p) =>
      {| planet := Some p; fact := EmptyString; loading := true |}
  | PlanetProp None =>
      {| planet := None; fact := fact s; loading := loading s |}
  | FactArrives data =>
      {| planet := planet s; fact := data; loading := false |}
  end.

Definition panelRun (es : list PanelEvent) (s : PanelState) : PanelState :=
  fold_left panelStep es s.

(** What the panel renders in its fact box: nothing at all without a
    planet, the spinner while loading, the fact in quotes otherwise. *)
Inductive PanelView : Type :=
| Hidden
| Spinner
| Quote (fact : string).

Definition render (s : PanelState) : PanelView :=
  match planet s with
  | None => Hidden
  | Some _ => if loading s then Spinner else Quote (fact s)
  end.

(** The render that is committed when the prop changes to [p], before the
    effect of the change has run: the new prop over the state of before. *)
Definition renderBeforeEffect (s : PanelState) (p : option PlanetData)
  : PanelView :=
  render {| planet := p; fact := fact s; loading := loading s |}.

End PlanetInfo.

(** ** Properties of the simulation clock *)

Module ClockProps.

Import Clock.
Local Open Scope float_scope.

(** One frame rewrites [previousTimeRef] and nothing but [daysElapsed]
    besides. *)
Lemma animate_frame (time : float) (s : AppState) :
  isPlaying (animate time s) = isPlaying s /\
  speed (animate time s) = speed s /\
  previousTimeRef (animate time s) = Some time.
Proof.
  unfold animate.
  destruct (previousTimeRef s) as [previous|]; [destruct (isPlaying s) eqn:E|];
    cbn; auto.
Qed.

(** The first frame of a component finds no previous timestamp. *)
Lemma animate_first (time : float) (s : AppState) :
  previousTimeRef s = None ->
  daysElapsed (animate time s) = daysElapsed s.
Proof.
  intros Hnone. unfold animate. rewrite Hnone. reflexivity.
Qed.

(** A frame of a paused clock leaves the accumulator alone. *)
Lemma animate_paused (time : float) (s : AppState) :
  isPlaying s = false ->
  daysElapsed (animate time s) = daysElapsed s.
Proof.
  intros Hpaused. unfold animate.
  destruct (previousTimeRef s) as [previous|]; [rewrite Hpaused|]; reflexivity.
Qed.

(** A frame of a playing clock that has a previous timestamp applies the
    functional update to the accumulator. *)
Lemma animate_playing (time previous : float) (s : AppState) :
  previousTimeRef s = Some previous ->
  isPlaying s = true ->
  daysElapsed (animate time s) =
  advance (speed s) (Math_min (time - previous) 100) (daysElapsed s).
Proof.
  intros Hprev Hplay. unfold animate. rewrite Hprev, Hplay. reflexivity.
Qed.

Lemma ticks_paused (times : list float) :
  forall s : AppState,
    isPlaying s = false ->
    isPlaying (ticks times s) = false /\
    daysElapsed (ticks times s) = daysElapsed s.
Proof.
  induction times as [|time times IH]; intros s Hpaused.
  - split; [assumption | reflexivity].
  - cbn [ticks fold_left]. fold (ticks times (animate time s)).
    destruct (animate_frame time s) as [Hplay _].
    assert (Hpaused' : isPlaying (animate time s) = false) by congruence.
    destruct (IH _ Hpaused') as [IH1 IH2].
    split; [exact IH1 |].
    rewrite IH2. apply animate_paused. exact Hpaused.
Qed.

(** A paused clock stays paused, with its accumulator, over frames and
    speed changes in any order. *)
Lemma run_idle_paused (es : list Event) :
  forall s : AppState,
    isPlaying s = false ->
    forallb idleEvent es = true ->
    isPlaying (run es s) = false /\
    daysElapsed (run es s) = daysElapsed s.
Proof.
  induction es as [|e es IH]; intros s Hpaused Hidle.
  - split; [assumption | reflexivity].
  - cbn [forallb] in Hidle. apply andb_prop in Hidle as [He Hes].
    cbn [run fold_left]. fold (run es (step s e)).
    assert (Hstep : isPlaying (step s e) = false /\
                    daysElapsed (step s e) = daysElapsed s).
    { destruct e as [time | | value | | value]; try discriminate He; cbn [step].
      - destruct (animate_frame time s) as [Hplay _].
        split; [congruence | apply animate_paused; exact Hpaused].
      - split; [exact Hpaused | reflexivity]. }
    destruct Hstep as [Hp1 Hd1].
    destruct (IH _ Hp1 Hes) as [IH1 IH2].
    split; [exact IH1 | congruence].
Qed.

(** [Math.min] on the corner cases of the language definition. *)
Example Math_min_corners :
  Math_min nan 100 = nan /\
  Math_min 100 nan = nan /\
  Math_min infinity 100 = 100 /\
  Math_min neg_infinity 100 = neg_infinity /\
  Math_min 0 (-0) = (-0) /\
  Math_min (-0) 0 = (-0) /\
  Math_min 16.5 100 = 16.5.
Proof. repeat split. Qed.

(** *** The clamp of the frame delta

    [<] on binary64, through its specification on [spec_float]. *)
Lemma SFcompare_antisym (a b : spec_float) :
  SFcompare a b = option_map CompOpp (SFcompare b a).
Proof.
  destruct a as [sa | sa | | sa ma ea], b as [sb | sb | | sb mb eb]; cbn;
    try reflexivity;
    try (destruct sa; reflexivity); try (destruct sb; reflexivity);
    try (destruct sa, sb; reflexivity).
  destruct sa, sb; cbn; try reflexivity;
    rewrite (Z.compare_antisym ea eb); destruct (ea ?= eb)%Z; cbn;
    try reflexivity;
    first [ rewrite (Pos.compare_cont_antisym mb ma Eq); reflexivity
          | rewrite <- (Pos.compare_cont_antisym ma mb Eq); cbn;
            rewrite ?CompOpp_involutive; reflexivity ].
Qed.

Lemma SFcompare_refl (a : spec_float) :
  a <> S754_nan -> SFcompare a a = Some Eq.
Proof.
  destruct a as [sa | sa | | sa ma ea]; cbn; intros Hn;
    try congruence; try (destruct sa; reflexivity).
  destruct sa; rewrite Z.compare_refl, Pos.compare_cont_refl; reflexivity.
Qed.

Lemma ltb_antisym (x y : float) : (x <? y) = true -> (y <? x) = false.
Proof.
  rewrite !ltb_spec. unfold SFltb. rewrite (SFcompare_antisym (Prim2SF y)).
  destruct (SFcompare (Prim2SF x) (Prim2SF y)) as [[| |]|]; cbn; congruence.
Qed.

Lemma ltb_number (x y : float) : (x <? y) = true -> is_nan y = false.
Proof.
  unfold is_nan. rewrite ltb_spec, FloatAxioms.eqb_spec. unfold SFltb, SFeqb.
  intros Hlt. rewrite SFcompare_refl; [reflexivity |].
  intros Hn. rewrite Hn in Hlt. destruct (Prim2SF x); discriminate Hlt.
Qed.

(** Every delta above 100 ms is cut to 100 ms, and a smaller one is kept. *)
Lemma Math_min_above (x : float) : (100 <? x) = true -> Math_min x 100 = 100.
Proof.
  intros Hlt. unfold Math_min.
  rewrite (ltb_number 100 x Hlt), (ltb_antisym 100 x Hlt), Hlt. reflexivity.
Qed.

Lemma Math_min_below (x : float) : (x <? 100) = true -> Math_min x 100 = x.
Proof.
  intros Hlt. unfold Math_min.
  assert (Hx : is_nan x = false).
  { unfold is_nan. rewrite FloatAxioms.eqb_spec. unfold SFeqb.
    rewrite ltb_spec in Hlt. unfold SFltb in Hlt.
    rewrite SFcompare_refl; [reflexivity |].
    intros Hn. rewrite Hn in Hlt. discriminate Hlt. }
  rewrite Hx, Hlt. reflexivity.
Qed.

(** So a playing clock never adds more than [speed * (100 / 16)] in one
    frame: after a stall of any length it moves as after 100 ms. *)
Lemma animate_clamped (s : AppState) (previous time : float) :
  previousTimeRef s = Some previous ->
  isPlaying s = true ->
  (100 <? time - previous) = true ->
  daysElapsed (animate time s) = advance (speed s) 100 (daysElapsed s).
Proof.
  intros Hprev Hplay Hlong.
  rewrite (animate_playing time previous) by assumption.
  rewrite Math_min_above by exact Hlong. reflexivity.
Qed.

(** The two deltas of the clamp example are both cut to 100 ms. *)
Lemma Math_min_10000 : Math_min 10000 100 = 100.
Proof. reflexivity. Qed.

Lemma Math_min_100 : Math_min 100 100 = 100.
Proof. reflexivity. Qed.

(** C2. The first frame only records its timestamp; every later frame of a
    playing clock whose accumulator is a number adds
    [speed * (min(time - previous, 100) / 16)] to [daysElapsed]; either way
    the frame's timestamp becomes the previous one, and nothing else
    changes. *)
Theorem animate_tick (s : AppState) (time : float) :
  (previousTimeRef s = None ->
   animate time s =
   {| daysElapsed := daysElapsed s;
      isPlaying := isPlaying s;
      speed := speed s;
      previousTimeRef := Some time |})
  /\
  (forall previous : float,
      previousTimeRef s = Some previous ->
      isPlaying s = true ->
      isNaN (daysElapsed s) = false ->
      animate time s =
      {| daysElapsed :=
           daysElapsed s + speed s * (Math_min (time - previous) 100 / 16);
         isPlaying := true;
         speed := speed s;
         previousTimeRef := Some time |}).
Proof.
  split.
  - intros Hnone. unfold animate. rewrite Hnone. reflexivity.
  - intros previous Hprev Hplay Hnum.
    unfold animate. rewrite Hprev, Hplay. cbn.
    unfold advance. rewrite Hnum. reflexivity.
Qed.

(** At 60 frames per second and speed 1: the frame at 1000 ms is the first
    and moves nothing, the frame at 1016 ms adds one day. *)
Lemma animate_tick_witness :
  animate 1000 initialState =
  {| daysElapsed := 0; isPlaying := true; speed := 1;
     previousTimeRef := Some 1000 |}
  /\
  animate 1016 (animate 1000 initialState) =
  {| daysElapsed := 1; isPlaying := true; speed := 1;
     previousTimeRef := Some 1016 |}.
Proof.
  split.
  - exact (proj1 (animate_tick initialState 1000) eq_refl).
  - exact (proj2 (animate_tick (animate 1000 initialState) 1016)
                 1000 eq_refl eq_refl eq_refl).
Defined.


(** What the consumers are handed is a number, whatever the state holds. *)
Lemma shownDaysElapsed_number (s : AppState) :
  isNaN (shownDaysElapsed s) = false.
Proof.
  unfold shownDaysElapsed.
  destruct (isNaN (daysElapsed s)) eqn:E; [reflexivity | exact E].
Qed.

Lemma shownDaysElapsed_NaN (s : AppState) :
  isNaN (daysElapsed s) = true -> shownDaysElapsed s = 0.
Proof.
  intros Hnan. unfold shownDaysElapsed. rewrite Hnan. reflexivity.
Qed.

(** C3. The value handed to the consumers is never NaN.  After a scrub to
    NaN it is 0, playing or paused, and the play state is as it was.  While
    paused it stays 0 over any frames.  While playing, the next frame puts 0
    into the state and the frame after that advances from 0 as usual (when
    the scrub comes before the very first frame, it is the second frame
    that puts 0 into the state); a paused clock stores 0 on the first frame
    after play is pressed. *)
Theorem scrub_NaN_shows_zero :
  (forall s : AppState, isNaN (shownDaysElapsed s) = false)
  /\
  (forall (s : AppState) (value : float),
      isNaN value = true ->
      shownDaysElapsed (onTimelineChange value s) = 0 /\
      isPlaying (onTimelineChange value s) = isPlaying s)
  /\
  (forall (s : AppState) (value : float) (times : list float),
      isNaN value = true ->
      isPlaying s = false ->
      shownDaysElapsed (ticks times (onTimelineChange value s)) = 0)
  /\
  (forall (s : AppState) (value previous t1 t2 : float),
      isNaN value = true ->
      previousTimeRef s = Some previous ->
      isPlaying s = true ->
      daysElapsed (animate t1 (onTimelineChange value s)) = 0 /\
      daysElapsed (animate t2 (animate t1 (onTimelineChange value s))) =
      0 + speed s * (Math_min (t2 - t1) 100 / 16))
  /\
  (forall (s : AppState) (value t1 t2 : float),
      isNaN value = true ->
      previousTimeRef s = None ->
      isPlaying s = true ->
      daysElapsed (animate t2 (animate t1 (onTimelineChange value s))) = 0)
  /\
  (forall (s : AppState) (value previous t1 : float),
      isNaN value = true ->
      previousTimeRef s = Some previous ->
      isPlaying s = false ->
      daysElapsed (animate t1 (togglePlaying (onTimelineChange value s))) = 0).
Proof.
  split; [exact shownDaysElapsed_number |].
  split.
  { intros s value Hnan. split; [| reflexivity].
    apply shownDaysElapsed_NaN. exact Hnan. }
  split.
  { intros s value times Hnan Hpaused.
    apply shownDaysElapsed_NaN.
    destruct (ticks_paused times (onTimelineChange value s) Hpaused)
      as [_ Hkept].
    rewrite Hkept. exact Hnan. }
  split.
  { intros s value previous t1 t2 Hnan Hprev Hplay.
    assert (H1 : daysElapsed (animate t1 (onTimelineChange value s)) = 0).
    { rewrite (animate_playing t1 previous) by assumption.
      cbn. unfold advance. rewrite Hnan. reflexivity. }
    split; [exact H1 |].
    destruct (animate_frame t1 (onTimelineChange value s))
      as [Hplay1 [Hspeed1 Hprev1]].
    rewrite (animate_playing t2 t1) by (cbn in *; congruence).
    rewrite H1, Hspeed1. reflexivity. }
  split.
  { intros s value t1 t2 Hnan Hnone Hplay.
    destruct (animate_frame t1 (onTimelineChange value s))
      as [Hplay1 [_ Hprev1]].
    rewrite (animate_playing t2 t1) by (cbn in *; congruence).
    rewrite animate_first by exact Hnone.
    cbn. unfold advance. rewrite Hnan. reflexivity. }
  intros s value previous t1 Hnan Hprev Hpaused.
  rewrite (animate_playing t1 previous).
  - cbn. unfold advance. rewrite Hnan. reflexivity.
  - exact Hprev.
  - cbn. rewrite Hpaused. reflexivity.
Qed.

(** A scrub to NaN one frame into a run at speed 2: the scene is handed 0
    at once, the frame at 16 ms stores 0, the frame at 32 ms adds two days;
    the same scrub on a paused clock shows 0 over three frames and is
    cleared by the first frame after play is pressed. *)
Lemma scrub_NaN_shows_zero_witness :
  let playing :=
    {| daysElapsed := 40; isPlaying := true; speed := 2;
       previousTimeRef := Some 0 |} in
  let paused :=
    {| daysElapsed := 40; isPlaying := false; speed := 2;
       previousTimeRef := Some 0 |} in
  (shownDaysElapsed (onTimelineChange nan playing) = 0 /\
   isPlaying (onTimelineChange nan playing) = true) /\
  shownDaysElapsed (ticks [16; 32; 48] (onTimelineChange nan paused)) = 0 /\
  (daysElapsed (animate 16 (onTimelineChange nan playing)) = 0 /\
   daysElapsed (animate 32 (animate 16 (onTimelineChange nan playing))) = 2) /\
  daysElapsed (animate 32 (animate 16 (onTimelineChange nan initialState))) = 0 /\
  daysElapsed (animate 16 (togglePlaying (onTimelineChange nan paused))) = 0.
Proof.
  intros playing paused.
  destruct scrub_NaN_shows_zero
    as [_ [Hscrub [Hpaused [Hplaying [Hfirst Hresume]]]]].
  split; [exact (Hscrub playing nan eq_refl) |].
  split; [exact (Hpaused paused nan [16; 32; 48] eq_refl eq_refl) |].
  split; [exact (Hplaying playing nan 0 16 32 eq_refl eq_refl eq_refl) |].
  split; [exact (Hfirst initialState nan 16 32 eq_refl eq_refl eq_refl) |].
  exact (Hresume paused nan 0 16 eq_refl eq_refl eq_refl).
Defined.

(** C4. [handleReset] puts 0 into [daysElapsed] and [false] into
    [isPlaying]; the speed multiplier and the previous timestamp are the
    ones of the state it was given. *)
Theorem handleReset_state (s : AppState) :
  handleReset s =
  {| daysElapsed := 0;
     isPlaying := false;
     speed := speed s;
     previousTimeRef := previousTimeRef s |}
  /\ daysElapsed (handleReset s) = 0
  /\ isPlaying (handleReset s) = false
  /\ speed (handleReset s) = speed s
  /\ previousTimeRef (handleReset s) = previousTimeRef s.
Proof. repeat split. Qed.

(** The example of the specification: a reset of the starting state. *)
Example handleReset_initialState :
  handleReset initialState =
  {| daysElapsed := 0; isPlaying := false; speed := 1;
     previousTimeRef := None |}.
Proof. reflexivity. Qed.

(** C5. While [isPlaying] is false, frames at any timestamps, increasing ones
    among them, leave [daysElapsed] as it was, and the clock stays paused. *)
Theorem paused_ticks_keep_daysElapsed (times : list float) (s : AppState) :
  isPlaying s = false ->
  daysElapsed (ticks times s) = daysElapsed s /\
  isPlaying (ticks times s) = false.
Proof.
  intros Hpaused.
  destruct (ticks_paused times s Hpaused) as [Hstill Hkept].
  split; assumption.
Qed.

(** Day 12.5, paused, then four frames 16 ms, 17 ms, 467 ms and 10 s
    apart. *)
Lemma paused_ticks_keep_daysElapsed_witness :
  daysElapsed
    (ticks [0; 16; 33; 500; 10500]
       {| daysElapsed := 12.5; isPlaying := false; speed := 3;
          previousTimeRef := None |}) = 12.5
  /\
  isPlaying
    (ticks [0; 16; 33; 500; 10500]
       {| daysElapsed := 12.5; isPlaying := false; speed := 3;
          previousTimeRef := None |}) = false.
Proof.
  exact (paused_ticks_keep_daysElapsed [0; 16; 33; 500; 10500]
           {| daysElapsed := 12.5; isPlaying := false; speed := 3;
              previousTimeRef := None |} eq_refl).
Defined.

(** A frame of a playing clock adds the same amount for a delta of 10000 ms
    as for one of 100 ms, at any speed. *)
Lemma animate_capped (s : AppState) (previous t1 t2 : float) :
  previousTimeRef s = Some previous ->
  isPlaying s = true ->
  t1 - previous = 10000 ->
  t2 - previous = 100 ->
  daysElapsed (animate t1 s) = advance (speed s) 100 (daysElapsed s) /\
  daysElapsed (animate t2 s) = advance (speed s) 100 (daysElapsed s).
Proof.
  intros Hprev Hplay H1 H2.
  rewrite (animate_playing t1 previous), (animate_playing t2 previous)
    by assumption.
  rewrite H1, H2, Math_min_10000, Math_min_100. split; reflexivity.
Qed.

(** C6. Playing at speed 1 with a number in the accumulator, a frame
    10000 ms after the previous one and a frame 100 ms after it leave the
    same [daysElapsed]: both add 1 * (100 / 16) = 6.25 days. *)
Theorem capped_delta_same_advance (s : AppState) (previous t1 t2 : float) :
  previousTimeRef s = Some previous ->
  isPlaying s = true ->
  speed s = 1 ->
  isNaN (daysElapsed s) = false ->
  t1 - previous = 10000 ->
  t2 - previous = 100 ->
  daysElapsed (animate t1 s) = daysElapsed (animate t2 s) /\
  daysElapsed (animate t2 s) = daysElapsed s + 6.25.
Proof.
  intros Hprev Hplay Hspeed Hnum H1 H2.
  destruct (animate_capped s previous t1 t2 Hprev Hplay H1 H2) as [E1 E2].
  split; [congruence |].
  rewrite E2, Hspeed. unfold advance. rewrite Hnum. reflexivity.
Qed.

(** From day 3 with the previous frame at 500 ms: the frames at 10500 ms
    and at 600 ms both lead to day 9.25. *)
Lemma capped_delta_same_advance_witness :
  let s :=
    {| daysElapsed := 3; isPlaying := true; speed := 1;
       previousTimeRef := Some 500 |} in
  daysElapsed (animate 10500 s) = daysElapsed (animate 600 s) /\
  daysElapsed (animate 600 s) = 9.25.
Proof.
  intros s.
  exact (capped_delta_same_advance s 500 10500 600
           eq_refl eq_refl eq_refl eq_refl eq_refl eq_refl).
Defined.

(** The handlers other than [handleReset] store what they are given:
    none of them looks at the accumulator. *)
Lemma handlers_keep_daysElapsed (s : AppState) (value : float) :
  daysElapsed (onTimelineChange value s) = value /\
  daysElapsed (togglePlaying s) = daysElapsed s /\
  daysElapsed (onSpeedChange value s) = daysElapsed s.
Proof. repeat split. Qed.

(** C10. A frame of a playing clock that has a previous timestamp turns a
    NaN accumulator into 0, whatever the delta and the speed: nothing is
    added to the 0.  No other frame touches a NaN accumulator: not a frame
    of a paused clock, and not the first frame.  The scrub stores NaN as it
    is, and a paused clock keeps it over any frames and speed changes, that
    is until play is pressed (or the accumulator is written by a reset or
    another scrub). *)
Theorem NaN_cleared_by_playing_frame_only :
  (forall (s : AppState) (time previous : float),
      isNaN (daysElapsed s) = true ->
      previousTimeRef s = Some previous ->
      isPlaying s = true ->
      daysElapsed (animate time s) = 0)
  /\
  (forall (s : AppState) (time : float),
      isNaN (daysElapsed s) = true ->
      isPlaying s = false \/ previousTimeRef s = None ->
      daysElapsed (animate time s) = daysElapsed s)
  /\
  (forall (s : AppState) (value : float) (es : list Event),
      isNaN value = true ->
      isPlaying s = false ->
      forallb idleEvent es = true ->
      daysElapsed (onTimelineChange value s) = value /\
      daysElapsed (run es (onTimelineChange value s)) = value /\
      isNaN (daysElapsed (run es (onTimelineChange value s))) = true).
Proof.
  split.
  { intros s time previous Hnan Hprev Hplay.
    rewrite (animate_playing time previous) by assumption.
    unfold advance. rewrite Hnan. reflexivity. }
  split.
  { intros s time Hnan [Hpaused | Hnone].
    - apply animate_paused. exact Hpaused.
    - apply animate_first. exact Hnone. }
  intros s value es Hnan Hpaused Hidle.
  destruct (run_idle_paused es (onTimelineChange value s) Hpaused Hidle)
    as [_ Hkept].
  split; [reflexivity |].
  rewrite Hkept. split; [reflexivity | exact Hnan].
Qed.

(** A NaN accumulator at speed 5, previous frame at 0 ms: the frame at
    50 ms of the playing clock stores 0, not 0 + 5 * (50 / 16); the same
    frame of the paused clock, and three more around a speed change, keep
    NaN. *)
Lemma NaN_cleared_by_playing_frame_only_witness :
  let playing :=
    {| daysElapsed := nan; isPlaying := true; speed := 5;
       previousTimeRef := Some 0 |} in
  let paused :=
    {| daysElapsed := 7; isPlaying := false; speed := 5;
       previousTimeRef := Some 0 |} in
  let es := [Frame 50; Frame 66; SetSpeed 10; Frame 82; Frame 98] in
  daysElapsed (animate 50 playing) = 0 /\
  daysElapsed (animate 50 (onTimelineChange nan paused)) = nan /\
  (daysElapsed (onTimelineChange nan paused) = nan /\
   daysElapsed (run es (onTimelineChange nan paused)) = nan /\
   isNaN (daysElapsed (run es (onTimelineChange nan paused))) = true).
Proof.
  intros playing paused es.
  destruct NaN_cleared_by_playing_frame_only as [Hclear [Hkeep Hpaused]].
  split; [exact (Hclear playing 50 0 eq_refl eq_refl eq_refl) |].
  split; [exact (Hkeep (onTimelineChange nan paused) 50 eq_refl
                   (or_introl eq_refl)) |].
  exact (Hpaused paused nan es eq_refl eq_refl eq_refl).
Defined.

End ClockProps.

(** ** Properties of the position calculator *)

Module OrbitProps.

Import Orbit.
Local Open Scope R_scope.

Lemma Rzero_false (r : R) : r <> 0 -> Rzero r = false.
Proof.
  intros Hr. unfold Rzero. destruct (Req_dec_T r 0); [contradiction | reflexivity].
Qed.

Lemma Rnegative_false (r : R) : 0 <= r -> Rnegative r = false.
Proof.
  intros Hr. unfold Rnegative. destruct (Rlt_dec r 0); [lra | reflexivity].
Qed.

(** The phase angle of a finite time over a finite non-zero period. *)
Lemma angle_real (p t : R) :
  p <> 0 ->
  mul (mul (div (Fin t) (mul (Fin p) (Fin 365.25))) (Fin 2)) Math_PI =
  Fin (t / (p * 365.25) * 2 * PI).
Proof.
  intros Hp. cbn. rewrite Rzero_false by lra. reflexivity.
Qed.

(** The semi-minor axis over the semi-major one, for an ellipse. *)
Lemma minor_axis_real (e : R) :
  -1 <= e <= 1 ->
  Math_sqrt (sub (Fin 1) (exponentiate (Fin e) 2)) = Fin (sqrt (1 - e ^ 2)).
Proof.
  intros He. cbn. rewrite Rnegative_false by nra. reflexivity.
Qed.

(** On finite arguments inside the domain of the formulas, the calculator
    computes the position of the specification, and no NaN appears. *)
Lemma calculatePlanetPosition_real (planet : PlanetData) (d p e t : R) :
  distance planet = Fin d ->
  period planet = Fin p ->
  eccentricity planet = Fin e ->
  p <> 0 ->
  -1 <= e <= 1 ->
  calculatePlanetPosition planet (Fin t) = Fin3 (spec_position d p e t).
Proof.
  intros Hd Hp He Hp0 He1.
  unfold calculatePlanetPosition.
  rewrite Hd, Hp, He, (angle_real p t Hp0), (minor_axis_real e He1).
  cbn. unfold spec_position, Fin3.
  replace (t / (p * 365.25) * (2 * PI)) with (t / (p * 365.25) * 2 * PI)
    by ring.
  reflexivity.
Qed.

Lemma mul_NaN_r (x : number) : mul x NaN = NaN.
Proof. destruct x; reflexivity. Qed.

(** A period of zero is not rejected: the division by it gives NaN or an
    infinity, whose cosine and sine are NaN, and NaN reaches both moving
    coordinates. *)
Lemma zero_period_NaN (planet : PlanetData) (t : number) :
  period planet = Fin 0 ->
  calculatePlanetPosition planet t = (NaN, Fin 0, NaN).
Proof.
  intros Hp. unfold calculatePlanetPosition. rewrite Hp.
  assert (Hangle :
            exists s,
              mul (mul (div t (mul (Fin 0) (Fin 365.25))) (Fin 2)) Math_PI = NaN
              \/
              mul (mul (div t (mul (Fin 0) (Fin 365.25))) (Fin 2)) Math_PI =
              Infinity s).
  { assert (Hz : Rzero (0 * 365.25) = true).
    { unfold Rzero. destruct (Req_dec_T (0 * 365.25) 0); [reflexivity | lra]. }
    assert (H2 : Rzero 2 = false) by (apply Rzero_false; lra).
    assert (Hpi : Rzero PI = false).
    { apply Rzero_false. pose proof PI_RGT_0. lra. }
    destruct t as [| s | r]; cbn.
    - exists false. left. reflexivity.
    - rewrite H2. cbn. rewrite Hpi. eexists. right. reflexivity.
    - rewrite Hz. destruct (Rzero r); cbn.
      + exists false. left. reflexivity.
      + rewrite H2. cbn. rewrite Hpi. eexists. right. reflexivity. }
  destruct Hangle as [s [-> | ->]]; cbn [Math_cos Math_sin];
    rewrite !mul_NaN_r; reflexivity.
Qed.

(** Each body of the table meets the invariant of the specification. *)
Lemma PLANETS_CelestialBody :
  Forall (fun planet => exists d p e : R, CelestialBody planet d p e) PLANETS.
Proof.
  unfold PLANETS, CelestialBody.
  repeat (apply Forall_cons;
          [do 3 eexists; repeat split; try reflexivity; lra |]).
  apply Forall_nil.
Qed.

(** So the nine planets are at real positions at every real time: no NaN
    and no infinity reaches the scene from the table. *)
Lemma PLANETS_positions_real (planet : PlanetData) (t : R) :
  In planet PLANETS ->
  exists x z : R,
    calculatePlanetPosition planet (Fin t) = (Fin x, Fin 0, Fin z).
Proof.
  intros Hin.
  pose proof PLANETS_CelestialBody as Hall.
  rewrite Forall_forall in Hall.
  destruct (Hall planet Hin) as (d & p & e & Hd & Hp & He & Hd0 & Hp0 & He1).
  rewrite (calculatePlanetPosition_real planet d p e t) by (auto; lra).
  unfold spec_position, Fin3. eauto.
Qed.

End OrbitProps.

(** ** More on the simulation clock: the clamp, pausing and resuming *)

Module ClockMore.

Import Clock ClockProps.
Local Open Scope float_scope.

Lemma ticks_app (times : list float) (time : float) (s : AppState) :
  ticks (times ++ [time]) s = animate time (ticks times s).
Proof. unfold ticks. rewrite fold_left_app. reflexivity. Qed.

(** Frames never touch the play state or the speed. *)
Lemma ticks_frame (times : list float) :
  forall s : AppState,
    isPlaying (ticks times s) = isPlaying s /\
    speed (ticks times s) = speed s.
Proof.
  induction times as [|time times IH]; intros s; [split; reflexivity |].
  cbn [ticks fold_left]. fold (ticks times (animate time s)).
  destruct (IH (animate time s)) as [IH1 IH2].
  destruct (animate_frame time s) as [Hplay [Hspeed _]].
  split; congruence.
Qed.

(** X1. A frame of a playing clock that comes more than 100 ms after the
    previous one, however long after, moves the clock exactly as a frame
    100 ms after it: by [speed * 6.25] days, or to 0 from NaN. *)
Theorem long_stall_counts_as_100ms
  (s : AppState) (previous time t100 : float) :
  previousTimeRef s = Some previous ->
  isPlaying s = true ->
  (100 <? time - previous) = true ->
  t100 - previous = 100 ->
  daysElapsed (animate time s) = daysElapsed (animate t100 s) /\
  daysElapsed (animate time s) =
  (if isNaN (daysElapsed s) then 0 else daysElapsed s + speed s * 6.25).
Proof.
  intros Hprev Hplay Hlong H100.
  rewrite (animate_clamped s previous time Hprev Hplay Hlong).
  rewrite (animate_playing t100 previous) by assumption.
  rewrite H100, Math_min_100. split; reflexivity.
Qed.

(** A tab left for an hour at speed 2: the frame that follows adds 12.5
    days, as the frame 100 ms after the last one would have. *)
Lemma long_stall_counts_as_100ms_witness :
  let s :=
    {| daysElapsed := 30; isPlaying := true; speed := 2;
       previousTimeRef := Some 5000 |} in
  daysElapsed (animate 3605000 s) = daysElapsed (animate 5100 s) /\
  daysElapsed (animate 3605000 s) = 42.5.
Proof.
  intros s.
  exact (long_stall_counts_as_100ms s 5000 3605000 5100
           eq_refl eq_refl eq_refl eq_refl).
Defined.

(** X2. A delta below 100 ms is applied as it is.  Nothing bounds it from
    below: a timestamp earlier than the previous one is a negative delta,
    and the clock moves backwards by it. *)
Theorem short_delta_unclamped (s : AppState) (previous time : float) :
  previousTimeRef s = Some previous ->
  isPlaying s = true ->
  (time - previous <? 100) = true ->
  daysElapsed (animate time s) =
  (if isNaN (daysElapsed s) then 0
   else daysElapsed s + speed s * ((time - previous) / 16)).
Proof.
  intros Hprev Hplay Hshort.
  rewrite (animate_playing time previous) by assumption.
  rewrite Math_min_below by exact Hshort. reflexivity.
Qed.

(** Day 10 at speed 1 with the previous frame at 1000 ms: a frame stamped
    984 ms takes one day off. *)
Lemma short_delta_unclamped_witness :
  daysElapsed
    (animate 984
       {| daysElapsed := 10; isPlaying := true; speed := 1;
          previousTimeRef := Some 1000 |}) = 9.
Proof.
  exact (short_delta_unclamped
           {| daysElapsed := 10; isPlaying := true; speed := 1;
              previousTimeRef := Some 1000 |} 1000 984
           eq_refl eq_refl eq_refl).
Defined.

(** X3. The frames of a paused clock keep recording their timestamps, so
    the pause itself is never credited: the first frame after play is
    pressed advances by the delta to the last paused frame only. *)
Theorem resume_counts_from_last_frame
  (s : AppState) (times : list float) (last time : float) :
  isPlaying s = false ->
  daysElapsed (animate time (togglePlaying (ticks (times ++ [last]) s))) =
  advance (speed s) (Math_min (time - last) 100) (daysElapsed s).
Proof.
  intros Hpaused.
  set (paused := ticks (times ++ [last]) s).
  assert (Hprev : previousTimeRef paused = Some last).
  { unfold paused. rewrite ticks_app. apply animate_frame. }
  destruct (ticks_frame (times ++ [last]) s) as [Hplay Hspeed].
  destruct (ticks_paused (times ++ [last]) s Hpaused) as [_ Hdays].
  fold paused in Hplay, Hspeed, Hdays.
  rewrite (animate_playing time last).
  - cbn [togglePlaying speed daysElapsed]. rewrite Hspeed, Hdays. reflexivity.
  - exact Hprev.
  - cbn [togglePlaying isPlaying]. rewrite Hplay, Hpaused. reflexivity.
Qed.

(** Paused at day 5 from 0 ms to 60 s, with frames all along; play is
    pressed and the frame at 60016 ms adds one day, not 6.25. *)
Lemma resume_counts_from_last_frame_witness :
  daysElapsed
    (animate 60016
       (togglePlaying
          (ticks ([0; 16; 30000] ++ [60000])
             {| daysElapsed := 5; isPlaying := false; speed := 1;
                previousTimeRef := None |}))) = 6.
Proof.
  exact (resume_counts_from_last_frame
           {| daysElapsed := 5; isPlaying := false; speed := 1;
              previousTimeRef := None |} [0; 16; 30000] 60000 60016 eq_refl).
Defined.

(** X4. As long as play is not pressed, a paused clock holds the value
    written last by a reset (0) or a scrub (its value), through any frames
    and speed changes in between, and stays paused. *)
Theorem paused_clock_holds_last_write (es : list Event) (s : AppState) :
  isPlaying s = false ->
  forallb (fun e => match e with TogglePlay => false | _ => true end) es
  = true ->
  isPlaying (run es s) = false /\
  daysElapsed (run es s) =
  fold_left
    (fun days e =>
       match e with
       | Reset => 0
       | Scrub value => value
       | _ => days
       end)
    es (daysElapsed s).
Proof.
  revert s. induction es as [|e es IH]; intros s Hpaused Hnoplay.
  - split; [assumption | reflexivity].
  - cbn [forallb] in Hnoplay. apply andb_prop in Hnoplay as [He Hes].
    cbn [run fold_left]. fold (run es (step s e)).
    assert (Hstep :
              isPlaying (step s e) = false /\
              daysElapsed (step s e) =
              match e with
              | Reset => 0
              | Scrub value => value
              | _ => daysElapsed s
              end).
    { destruct e as [time | | value | | value]; try discriminate He;
        cbn [step].
      - destruct (animate_frame time s) as [Hplay _].
        split; [congruence | apply animate_paused; exact Hpaused].
      - split; reflexivity.
      - split; [exact Hpaused | reflexivity].
      - split; [exact Hpaused | reflexivity]. }
    destruct Hstep as [Hp1 Hd1].
    destruct (IH _ Hp1 Hes) as [IH1 IH2].
    split; [exact IH1 |]. rewrite IH2, Hd1. reflexivity.
Qed.

(** Paused at day 80: a frame, a scrub to day 12, a reset, a frame, a scrub
    to day 365, more frames and a speed change leave the clock paused at
    day 365. *)
Lemma paused_clock_holds_last_write_witness :
  let es :=
    [Frame 16; Scrub 12; Reset; Frame 32; Scrub 365; Frame 48; SetSpeed 10;
     Frame 64] in
  let s :=
    {| daysElapsed := 80; isPlaying := false; speed := 1;
       previousTimeRef := Some 0 |} in
  isPlaying (run es s) = false /\ daysElapsed (run es s) = 365.
Proof.
  intros es s.
  exact (paused_clock_holds_last_write es s eq_refl eq_refl).
Defined.

End ClockMore.

(** ** More on the position calculator: landmarks, symmetries, bad inputs *)

Module OrbitMore.

Import Orbit OrbitProps.
Local Open Scope R_scope.

(** Without a real phase angle both moving coordinates are NaN. *)
Lemma position_without_angle (planet : PlanetData) (t : number) :
  match
    mul (mul (div t (mul (period planet) (Fin 365.25))) (Fin 2)) Math_PI
  with
  | Fin _ => False
  | _ => True
  end ->
  calculatePlanetPosition planet t = (NaN, Fin 0, NaN).
Proof.
  unfold calculatePlanetPosition.
  destruct (mul (mul (div t (mul (period planet) (Fin 365.25))) (Fin 2))
                Math_PI) as [| s | r];
    intros H; try contradiction;
    cbn [Math_cos Math_sin]; rewrite !mul_NaN_r; reflexivity.
Qed.

Lemma Rzero_2 : Rzero 2 = false.
Proof. apply Rzero_false. lra. Qed.

Lemma Rzero_PI : Rzero PI = false.
Proof. apply Rzero_false. pose proof PI_RGT_0. lra. Qed.

(** At an infinite time the angle is infinite or NaN, whatever the period. *)
Lemma infinite_time_NaN (planet : PlanetData) (s : bool) :
  calculatePlanetPosition planet (Infinity s) = (NaN, Fin 0, NaN).
Proof.
  destruct (period planet) as [| s' | r] eqn:Hp.
  - apply position_without_angle. rewrite Hp. exact I.
  - apply position_without_angle. rewrite Hp. cbn.
    rewrite Rzero_false by lra. exact I.
  - destruct (Req_dec_T r 0) as [-> | Hr].
    + apply zero_period_NaN. exact Hp.
    + apply position_without_angle. rewrite Hp. cbn.
      rewrite Rzero_2. cbn. rewrite Rzero_PI. exact I.
Qed.

(** X7. Nothing is rejected and nothing throws: a period that is 0 or NaN,
    or a time that is NaN or infinite, gives [(NaN, 0, NaN)], whatever the
    other parameters are. *)
Theorem bad_period_or_time_gives_NaN (planet : PlanetData) (t : number) :
  period planet = Fin 0 \/ period planet = NaN \/
  t = NaN \/ (exists s, t = Infinity s) ->
  calculatePlanetPosition planet t = (NaN, Fin 0, NaN).
Proof.
  intros [Hzero | [Hnan | [Ht | [s Ht]]]].
  - apply zero_period_NaN. exact Hzero.
  - apply position_without_angle. rewrite Hnan. destruct t; exact I.
  - apply position_without_angle. rewrite Ht. exact I.
  - rewrite Ht. apply infinite_time_NaN.
Qed.

(** Earth at an infinite time. *)
Lemma bad_period_or_time_gives_NaN_witness :
  calculatePlanetPosition Earth (Infinity false) = (NaN, Fin 0, NaN).
Proof.
  apply bad_period_or_time_gives_NaN.
  right; right; right. exists false. reflexivity.
Defined.

End OrbitMore.

(** ** The orbit line and the placement of the planets *)

Module SceneProps.

Import Clock ClockProps Orbit OrbitProps OrbitMore Scene.
Local Open Scope R_scope.

(** X14. A body with a period of 0 has an orbit line of 101 points
    [(NaN, 0, NaN)]: the division by the period is not guarded, and the
    line has nothing to show. *)
Theorem orbit_line_zero_period (planet : PlanetData) :
  period planet = Fin 0 ->
  orbitPoints planet = repeat {| x := NaN; y := Fin 0; z := NaN |} 101.
Proof.
  intros Hp.
  assert (Hpoint : forall i,
             orbitPoint planet i = {| x := NaN; y := Fin 0; z := NaN |}).
  { intros i. unfold orbitPoint.
    rewrite (zero_period_NaN planet _ Hp). reflexivity. }
  unfold orbitPoints.
  generalize 0%nat at 1. generalize 101%nat.
  induction n as [|n IH]; intros start; [reflexivity |].
  cbn [seq map repeat]. rewrite Hpoint, IH. reflexivity.
Qed.

Lemma orbit_line_zero_period_witness :
  orbitPoints
    {| name := "Still"; color := "#FFFFFF"; size := Fin 1;
       distance := Fin 12; period := Fin 0; eccentricity := Fin 0.1;
       description := "A body with no period." |}
  = repeat {| x := NaN; y := Fin 0; z := NaN |} 101.
Proof.
  apply orbit_line_zero_period. reflexivity.
Defined.

(** What [isNaN] and the test for an infinity say about the value of a
    binary64 number. *)
Lemma float_classes (f : float) :
  match Prim2SF f with
  | S754_nan => is_nan f = true /\ is_infinity f = false
  | S754_infinity _ => is_nan f = false /\ is_infinity f = true
  | _ => is_nan f = false /\ is_infinity f = false
  end.
Proof.
  unfold is_nan, is_infinity.
  rewrite !FloatAxioms.eqb_spec, abs_spec.
  change (Prim2SF infinity) with (S754_infinity false).
  unfold SFeqb.
  destruct (Prim2SF f) as [sg | sg | | sg m e] eqn:E.
  - split; reflexivity.
  - split; [destruct sg |]; reflexivity.
  - split; reflexivity.
  - rewrite SFcompare_refl by discriminate. split; reflexivity.
Qed.

Lemma toNumber_classes (f : float) :
  is_nan f = false ->
  (is_infinity f = true /\ exists sg, toNumber f = Infinity sg) \/
  (is_infinity f = false /\ exists r, toNumber f = Fin r).
Proof.
  intros Hnum. pose proof (float_classes f) as Hf. unfold toNumber.
  destruct (Prim2SF f) as [sg | sg | | sg m e].
  - right. split; [apply Hf | eauto].
  - left. split; [apply Hf | eauto].
  - destruct Hf. congruence.
  - right. split; [apply Hf | eauto].
Qed.



End SceneProps.

(** ** Properties of the fact service *)

Module GeminiProps.

Import Gemini.
Local Open Scope string_scope.

(** Whatever the key and the remote model do, the promise resolves to a
    string that is not empty. *)
Lemma getPlanetFunFact_nonempty
  (API_KEY : option string)
  (generateContent : GoogleGenAI -> GenerateContentParameters -> Response)
  (planetName : string) :
  fst (getPlanetFunFact API_KEY generateContent planetName) <> EmptyString.
Proof.
  unfold getPlanetFunFact, getClient.
  destruct API_KEY as [[| c key] |]; cbn; try discriminate.
  destruct (generateContent _ _) as [error | [[| c' text] |]]; cbn;
    discriminate.
Qed.

(** X16. [getPlanetFunFact] has no failing outcome and never resolves to
    the empty string.  Without a key, missing or empty, it resolves to the
    sentence about the key.  With a key, it resolves to the sentence about
    the archive when the call throws, to the sentence about no information
    when the text of the answer is missing or empty, and to that text, as
    it is, in every other case. *)
Theorem fact_by_outcome
  (API_KEY : option string)
  (generateContent : GoogleGenAI -> GenerateContentParameters -> Response)
  (planetName : string) :
  let result := fst (getPlanetFunFact API_KEY generateContent planetName) in
  let parameters :=
    {| model := "gemini-2.5-flash"; contents := prompt planetName |} in
  result <> EmptyString /\
  (API_KEY = None \/ API_KEY = Some EmptyString ->
   result = "API Key unavailable. Unable to fetch data.") /\
  (forall key,
      API_KEY = Some key ->
      key <> EmptyString ->
      (forall error,
          generateContent {| apiKey := key |} parameters = Rejects error ->
          result = "Unable to contact the Cosmic Archive (Gemini API Error).")
      /\
      (generateContent {| apiKey := key |} parameters = Resolves None \/
       generateContent {| apiKey := key |} parameters
       = Resolves (Some EmptyString) ->
       result = "No information available.")
      /\
      (forall text,
          generateContent {| apiKey := key |} parameters
          = Resolves (Some text) ->
          text <> EmptyString ->
          result = text)).
Proof.
  cbv zeta. split; [apply getPlanetFunFact_nonempty |]. split.
  - intros [-> | ->]; reflexivity.
  - intros key -> Hkey.
    unfold getPlanetFunFact, getClient.
    destruct key as [| c key]; [contradiction |]. cbn.
    repeat split.
    + intros error ->. reflexivity.
    + intros [-> | ->]; reflexivity.
    + intros text -> Htext.
      destruct text as [| c' text]; [contradiction | reflexivity].
Qed.

(** A key and an answer: the answer.  No key: the sentence about the key,
    whatever the model would have said. *)
Lemma fact_by_outcome_witness :
  fst (getPlanetFunFact (Some "k") (fun _ _ => Resolves (Some "Hot."))
         "Venus") = "Hot."
  /\
  fst (getPlanetFunFact None (fun _ _ => Resolves (Some "Hot.")) "Venus")
  = "API Key unavailable. Unable to fetch data.".
Proof.
  split.
  - apply (proj2 (proj2 (proj2 (proj2
             (fact_by_outcome (Some "k")
                (fun _ _ => Resolves (Some "Hot.")) "Venus"))
             "k" eq_refl ltac:(discriminate))) "Hot.");
      [reflexivity | discriminate].
  - exact (proj1 (proj2
             (fact_by_outcome None
                (fun _ _ => Resolves (Some "Hot.")) "Venus"))
             (or_introl eq_refl)).
Defined.

(** X17. Without a key, missing or empty, the remote model is not called:
    the only effect is the warning.  With a key it is called exactly once,
    with that key, the model [gemini-2.5-flash] and the prompt that names
    the planet: when the call answers, that call is the only effect; when
    it throws, the call is followed by one error line on the console that
    carries the exception. *)
Theorem effects_by_outcome
  (API_KEY : option string)
  (generateContent : GoogleGenAI -> GenerateContentParameters -> Response)
  (planetName : string) :
  let effects := snd (getPlanetFunFact API_KEY generateContent planetName) in
  let parameters :=
    {| model := "gemini-2.5-flash"; contents := prompt planetName |} in
  (API_KEY = None \/ API_KEY = Some EmptyString ->
   effects = [ConsoleWarn "API_KEY is not set in environment variables."])
  /\
  (forall key,
      API_KEY = Some key ->
      key <> EmptyString ->
      (forall text,
          generateContent {| apiKey := key |} parameters = Resolves text ->
          effects = [GenerateContent {| apiKey := key |} parameters])
      /\
      (forall error,
          generateContent {| apiKey := key |} parameters = Rejects error ->
          effects =
          [GenerateContent {| apiKey := key |} parameters;
           ConsoleError "Error fetching from Gemini:" error])).
Proof.
  cbv zeta. split.
  - intros [-> | ->]; reflexivity.
  - intros key -> Hkey.
    unfold getPlanetFunFact, getClient.
    destruct key as [| c key]; [contradiction |]. cbn.
    split.
    + intros text ->. reflexivity.
    + intros error ->. reflexivity.
Qed.

(** An empty key and a model that would answer: the warning, no call.  A
    key and a model that throws: one call, then one error line. *)
Lemma effects_by_outcome_witness :
  snd (getPlanetFunFact (Some EmptyString)
         (fun _ _ => Resolves (Some "Hot.")) "Venus")
  = [ConsoleWarn "API_KEY is not set in environment variables."]
  /\
  snd (getPlanetFunFact (Some "k") (fun _ _ => Rejects "503") "Venus")
  = [GenerateContent
       {| apiKey := "k" |}
       {| model := "gemini-2.5-flash"; contents := prompt "Venus" |};
     ConsoleError "Error fetching from Gemini:" "503"].
Proof.
  split.
  - exact (proj1 (effects_by_outcome
                    (Some EmptyString)
                    (fun _ _ => Resolves (Some "Hot.")) "Venus")
                 (or_intror eq_refl)).
  - apply (proj2 (proj2 (effects_by_outcome
                           (Some "k") (fun _ _ => Rejects "503") "Venus")
                        "k" eq_refl ltac:(discriminate)) "503").
    reflexivity.
Defined.

End GeminiProps.

(** ** Properties of the information panel *)

Module PlanetInfoProps.

Import Orbit Gemini GeminiProps PlanetInfo.
Local Open Scope string_scope.

(** With a planet selected, the panel is loading with an empty fact or
    not loading with a fact that is not empty. *)
Lemma panel_invariant_step (s : PanelState) (e : PanelEvent) :
  (planet s <> None ->
   (loading s = true /\ fact s = EmptyString) \/
   (loading s = false /\ fact s <> EmptyString)) ->
  match e with
  | FactArrives data => data <> EmptyString
  | PlanetProp _ => True
  end ->
  planet (panelStep s e) <> None ->
  (loading (panelStep s e) = true /\ fact (panelStep s e) = EmptyString) \/
  (loading (panelStep s e) = false /\ fact (panelStep s e) <> EmptyString).
Proof.
  intros Hinv He.
  destruct e as [[p |] | data]; cbn; intros Hsel.
  - left. split; reflexivity.
  - contradiction.
  - right. split; [reflexivity | exact He].
Qed.

(** X18. Over any run of the panel in which the facts that arrive are
    results of [getPlanetFunFact]: once the effect of the latest change of
    planet has run, an open panel shows the spinner or a fact that is not
    empty.  The render committed between a change of planet and its effect
    is another matter: it shows the new planet over the state of before,
    the spinner or the previous fact, and on the very first selection that
    is an empty quote. *)
Theorem open_panel_spinner_or_fact (es : list PanelEvent) :
  Forall
    (fun e =>
       match e with
       | FactArrives data =>
           exists API_KEY generateContent planetName,
             data = fst (getPlanetFunFact API_KEY generateContent planetName)
       | PlanetProp _ => True
       end) es ->
  match render (panelRun es initialPanel) with
  | Hidden => planet (panelRun es initialPanel) = None
  | Spinner => fact (panelRun es initialPanel) = EmptyString
  | Quote shown => shown <> EmptyString
  end
  /\
  (forall p : PlanetData,
      renderBeforeEffect (panelRun es initialPanel) (Some p) =
      if loading (panelRun es initialPanel) then Spinner
      else Quote (fact (panelRun es initialPanel)))
  /\
  (forall p : PlanetData,
      renderBeforeEffect initialPanel (Some p) = Quote EmptyString).
Proof.
  intros Hes. split; [| split; reflexivity].
  assert (Hinv :
            planet (panelRun es initialPanel) <> None ->
            (loading (panelRun es initialPanel) = true /\
             fact (panelRun es initialPanel) = EmptyString) \/
            (loading (panelRun es initialPanel) = false /\
             fact (panelRun es initialPanel) <> EmptyString)).
  { unfold panelRun.
    assert (H0 : planet initialPanel <> None ->
                 (loading initialPanel = true /\
                  fact initialPanel = EmptyString) \/
                 (loading initialPanel = false /\
                  fact initialPanel <> EmptyString))
      by (cbn; congruence).
    revert H0. generalize initialPanel.
    induction Hes as [| e es He Hes IH]; intros s Hs; [exact Hs |].
    cbn [fold_left]. apply IH.
    apply panel_invariant_step; [exact Hs |].
    destruct e as [p | data]; [exact I |].
    destruct He as (key & api & planetName & ->).
    apply getPlanetFunFact_nonempty. }
  unfold render.
  destruct (planet (panelRun es initialPanel)) as [p |]; [| reflexivity].
  destruct Hinv as [[Hl Hf] | [Hl Hf]]; [discriminate | |];
    rewrite Hl; assumption.
Qed.

(** Mars is selected, the service has no key, the panel shows its
    sentence; Venus is selected next, and the render before the effect
    still shows that sentence. *)
Lemma open_panel_spinner_or_fact_witness :
  let es :=
    [PlanetProp (Some Mars);
     FactArrives
       (fst (getPlanetFunFact None (fun _ _ => Rejects "timeout") "Mars"))] in
  render (panelRun es initialPanel)
  = Quote "API Key unavailable. Unable to fetch data."
  /\
  renderBeforeEffect (panelRun es initialPanel) (Some Venus)
  = Quote "API Key unavailable. Unable to fetch data."
  /\
  renderBeforeEffect initialPanel (Some Mars) = Quote EmptyString.
Proof.
  intros es.
  assert (Hes :
            Forall
              (fun e =>
                 match e with
                 | FactArrives data =>
                     exists API_KEY generateContent planetName,
                       data =
                       fst (getPlanetFunFact API_KEY generateContent
                              planetName)
                 | PlanetProp _ => True
                 end) es).
  { repeat constructor.
    exists None, (fun _ _ => Rejects "timeout"), "Mars". reflexivity. }
  destruct (open_panel_spinner_or_fact es Hes) as [_ [Hbefore Hfirst]].
  split; [reflexivity |].
  split; [exact (Hbefore Venus) | exact (Hfirst Mars)].
Defined.

(** X19. The panel keeps no link between a request and its answer, and
    nothing cancels a request: when a second planet is selected before the
    fact of the first has arrived, whichever fact arrives stops the spinner,
    and the fact that arrives last is the one that stays, under the name of
    the second planet. *)
Theorem late_fact_is_shown
  (es : list PanelEvent) (first second : PlanetData)
  (factFirst factSecond : string) :
  let selected :=
    panelRun (es ++ [PlanetProp (Some first); PlanetProp (Some second)])
             initialPanel in
  render selected = Spinner /\
  render (panelStep selected (FactArrives factFirst)) = Quote factFirst /\
  planet (panelRun [FactArrives factSecond; FactArrives factFirst] selected)
  = Some second /\
  render (panelRun [FactArrives factSecond; FactArrives factFirst] selected)
  = Quote factFirst.
Proof.
  cbv zeta. unfold panelRun. rewrite fold_left_app. cbn.
  repeat split.
Qed.

End PlanetInfoProps.

(** ** Binary64: signs and NaN through the operations *)

Module Binary64.

Import ClockProps.
Local Open Scope float_scope.

(** Rounding looks at the magnitude only; the sign is carried along. *)
Lemma binary_round_aux_opp (s : bool) (m e : Z) (l : location) :
  binary_round_aux prec emax (negb s) m e l =
  SFopp (binary_round_aux prec emax s m e l).
Proof.
  unfold binary_round_aux.
  destruct (shr_fexp prec emax m e l) as [mrs' e'].
  destruct (shr_fexp prec emax _ e' loc_Exact) as [mrs'' e''].
  destruct (shr_m mrs'') as [| q | q]; cbn; try reflexivity.
  match goal with |- context [if ?c then _ else _] => destruct c end;
    reflexivity.
Qed.

Lemma xorb_negb_l (a b : bool) : xorb (negb a) b = negb (xorb a b).
Proof. destruct a, b; reflexivity. Qed.

Lemma xorb_negb_r (a b : bool) : xorb a (negb b) = negb (xorb a b).
Proof. destruct a, b; reflexivity. Qed.

Lemma SFmul_opp_l (x y : spec_float) :
  SFmul prec emax (SFopp x) y = SFopp (SFmul prec emax x y).
Proof.
  destruct x as [sx | sx | | sx mx ex], y as [sy | sy | | sy my ey]; cbn;
    rewrite ?xorb_negb_l; try reflexivity.
  apply binary_round_aux_opp.
Qed.

Lemma SFmul_opp_r (x y : spec_float) :
  SFmul prec emax x (SFopp y) = SFopp (SFmul prec emax x y).
Proof.
  destruct x as [sx | sx | | sx mx ex], y as [sy | sy | | sy my ey]; cbn;
    rewrite ?xorb_negb_r; try reflexivity.
  apply binary_round_aux_opp.
Qed.

Lemma SFdiv_opp_l (x y : spec_float) :
  SFdiv prec emax (SFopp x) y = SFopp (SFdiv prec emax x y).
Proof.
  destruct x as [sx | sx | | sx mx ex], y as [sy | sy | | sy my ey]; cbn;
    rewrite ?xorb_negb_l; try reflexivity.
  destruct (SFdiv_core_binary prec emax (Z.pos mx) ex (Z.pos my) ey)
    as [[mz ez] lz].
  apply binary_round_aux_opp.
Qed.

Lemma mul_opp_l (x y : float) : (- x) * y = - (x * y).
Proof.
  apply Prim2SF_inj. rewrite mul_spec, !opp_spec, mul_spec.
  apply SFmul_opp_l.
Qed.

Lemma mul_opp_r (x y : float) : x * (- y) = - (x * y).
Proof.
  apply Prim2SF_inj. rewrite mul_spec, !opp_spec, mul_spec.
  apply SFmul_opp_r.
Qed.

Lemma div_opp_l (x y : float) : (- x) / y = - (x / y).
Proof.
  apply Prim2SF_inj. rewrite div_spec, !opp_spec, div_spec.
  apply SFdiv_opp_l.
Qed.

Lemma Prim2SF_nan : Prim2SF nan = S754_nan.
Proof. reflexivity. Qed.

Lemma mul_nan_r (x : float) : x * nan = nan.
Proof.
  apply Prim2SF_inj. rewrite mul_spec, Prim2SF_nan.
  destruct (Prim2SF x); reflexivity.
Qed.

Lemma mul_nan_l (x : float) : nan * x = nan.
Proof.
  apply Prim2SF_inj. rewrite mul_spec, Prim2SF_nan. reflexivity.
Qed.

(** The square root of a negative number, the negative infinity included,
    is NaN. *)
Lemma sqrt_negative (x : float) : (x <? 0) = true -> PrimFloat.sqrt x = nan.
Proof.
  rewrite ltb_spec. change (Prim2SF 0) with (S754_zero false).
  intros Hneg. apply Prim2SF_inj. rewrite sqrt_spec, Prim2SF_nan.
  unfold SFltb in Hneg.
  destruct (Prim2SF x) as [s | s | | s m e]; cbn in *; try discriminate;
    destruct s; try discriminate; reflexivity.
Qed.

Lemma is_nan_opp (x : float) : is_nan (- x) = is_nan x.
Proof.
  unfold is_nan. rewrite !FloatAxioms.eqb_spec, opp_spec. unfold SFeqb.
  destruct (Prim2SF x) as [s | s | | s m e]; cbn; try reflexivity.
  - destruct s; reflexivity.
  - destruct s; cbn; rewrite Z.compare_refl, Pos.compare_cont_refl;
      reflexivity.
Qed.

Lemma abs_opp (x : float) : abs (- x) = abs x.
Proof.
  apply Prim2SF_inj. rewrite !abs_spec, opp_spec.
  destruct (Prim2SF x); reflexivity.
Qed.

Lemma is_infinity_opp (x : float) : is_infinity (- x) = is_infinity x.
Proof. unfold is_infinity. rewrite abs_opp. reflexivity. Qed.

End Binary64.

(** ** The position calculator on binary64 *)

Module Orbit64Props.

Import Binary64 Orbit64.
Local Open Scope float_scope.
#[local] Set Warnings "-inexact-float".

(** The clauses of [ECMAScript], one by one, with the three builtins as
    variables. *)
Ltac conforming M H :=
  destruct M as [cos sin pow]; vm_compute in H;
  destruct H as (Hcos_nan & Hcos_inf & Hcos_ninf & Hcos_0 & Hcos_m0 &
                 Hsin_nan & Hsin_inf & Hsin_ninf & Hsin_0 & Hsin_m0 &
                 Hpow_nan & Hpow_0 & Hpow_m0).

Lemma firstOrder_ECMAScript : ECMAScript firstOrder.
Proof. repeat split. Qed.

Lemma firstOrder_even (angle : float) :
  Math_cos firstOrder (- angle) = Math_cos firstOrder angle.
Proof.
  unfold firstOrder, Math_cos.
  rewrite is_nan_opp, is_infinity_opp. reflexivity.
Qed.

Lemma firstOrder_odd (angle : float) :
  Math_sin firstOrder (- angle) = - Math_sin firstOrder angle.
Proof.
  unfold firstOrder, Math_sin.
  rewrite is_infinity_opp. destruct (is_infinity angle); reflexivity.
Qed.

(** The example of the specification: Earth at day 0 has x = 19.66 and
    y = 0, on every implementation that meets the language definition. *)
Example Earth_at_day_0 (M : MathBuiltins) :
  ECMAScript M ->
  fst (calculatePlanetPosition M Earth 0) = (19.66, 0).
Proof.
  intros H. conforming M H. vm_compute. rewrite Hcos_0. reflexivity.
Qed.

(** C1. For every body and every elapsed time the calculator returns
    [(a * cos angle - f, 0, b * sin angle)] with
    [periodDays = period * 365.25], [angle = (t / periodDays) * 2 * pi],
    [a = distance], [b = distance * sqrt (1 - eccentricity ** 2)] and
    [f = distance * eccentricity], every operation being the binary64 one
    and cosine, sine and power those of the implementation, whichever it
    is.  Run on Earth a quarter of a year in, where the angle is exactly
    [Math.PI / 2]: with the values the builtins return there,
    6.123233995736766e-17 for the cosine, 1 for the sine and
    0.00028900000000000003 for [0.017 ** 2], the triple is
    (-0.3399999999999988, 0, 19.997109791167322). *)
Theorem calculatePlanetPosition_triple :
  (forall (M : MathBuiltins) (planet : PlanetData) (t : float),
      let periodDays := period planet * 365.25 in
      let angle := (t / periodDays) * 2 * Math_PI in
      let a := distance planet in
      let b :=
        distance planet
        * Math_sqrt (1 - exponentiate M (eccentricity planet) 2) in
      let f := distance planet * eccentricity planet in
      calculatePlanetPosition M planet t =
      (a * Math_cos M angle - f, 0, b * Math_sin M angle))
  /\
  (forall M : MathBuiltins,
      Math_cos M (Math_PI / 2) = 6.123233995736766e-17 ->
      Math_sin M (Math_PI / 2) = 1 ->
      exponentiate M 0.017 2 = 0.00028900000000000003 ->
      calculatePlanetPosition M Earth 91.3125 =
      (-0.3399999999999988, 0, 19.997109791167322)).
Proof.
  split; [reflexivity |].
  intros M Hcos Hsin Hpow. destruct M as [cos sin pow].
  vm_compute in Hcos, Hsin, Hpow. vm_compute.
  rewrite Hcos, Hsin, Hpow. reflexivity.
Qed.

(** The same run, on the implementation that returns these three values
    whatever it is given. *)
Lemma calculatePlanetPosition_triple_witness :
  calculatePlanetPosition
    {| Math_cos := fun _ => 6.123233995736766e-17;
       Math_sin := fun _ => 1;
       exponentiate := fun _ _ => 0.00028900000000000003 |}
    Earth 91.3125 =
  (-0.3399999999999988, 0, 19.997109791167322).
Proof.
  apply (proj2 calculatePlanetPosition_triple); reflexivity.
Defined.









(** X6. On an implementation whose cosine is even and whose sine is odd,
    running the time backwards mirrors the position in the x axis, bit for
    bit: at [- t] the body has the x and the y of time [t] and the opposite
    z.  Division and multiplication round the magnitude and carry the sign,
    so the phase angle of [- t] is the opposite of the phase angle of [t]. *)
Theorem time_reversal_mirror64
  (M : MathBuiltins) (planet : PlanetData) (t x y z : float) :
  (forall angle, Math_cos M (- angle) = Math_cos M angle) ->
  (forall angle, Math_sin M (- angle) = - Math_sin M angle) ->
  calculatePlanetPosition M planet t = (x, y, z) ->
  calculatePlanetPosition M planet (- t) = (x, y, - z).
Proof.
  intros Heven Hodd. unfold calculatePlanetPosition. intros Hposition.
  injection Hposition as Hx Hy Hz. subst x y z.
  rewrite div_opp_l, !mul_opp_l, Heven, Hodd, mul_opp_r. reflexivity.
Qed.

(** Mars-like: 26 units out on a circle of 1.88 years, 200 days before and
    after day 0. *)
Lemma time_reversal_mirror64_witness :
  calculatePlanetPosition firstOrder (circular 26 1.88) (- 200) =
  (fst (fst (calculatePlanetPosition firstOrder (circular 26 1.88) 200)),
   snd (fst (calculatePlanetPosition firstOrder (circular 26 1.88) 200)),
   - snd (calculatePlanetPosition firstOrder (circular 26 1.88) 200)).
Proof.
  apply (time_reversal_mirror64 firstOrder (circular 26 1.88) 200).
  - exact firstOrder_even.
  - exact firstOrder_odd.
  - reflexivity.
Defined.

(** X8. When [1 - eccentricity ** 2] comes out negative, as it does for an
    eccentricity beyond 1 in size, the z coordinate is NaN for every
    distance, period and elapsed time: [Math.sqrt] of a negative number is
    NaN, and NaN goes through both multiplications. *)
Theorem open_orbit_z_NaN
  (M : MathBuiltins) (planet : PlanetData) (t : float) :
  (1 - exponentiate M (eccentricity planet) 2 <? 0) = true ->
  snd (calculatePlanetPosition M planet t) = nan.
Proof.
  intros Hneg. unfold calculatePlanetPosition, Math_sqrt. cbn [snd].
  rewrite (sqrt_negative _ Hneg), mul_nan_r, mul_nan_l. reflexivity.
Qed.

(** An eccentricity of 1.5: [1 - 1.5 * 1.5] is -1.25. *)
Lemma open_orbit_z_NaN_witness :
  snd (calculatePlanetPosition firstOrder
         {| name := "Comet"; color := "#FFFFFF"; size := 1;
            distance := 30; period := 5; eccentricity := 1.5;
            description := "A body on an open orbit." |}
         100) = nan.
Proof.
  apply open_orbit_z_NaN. reflexivity.
Defined.

End Orbit64Props.

